(** * S3Util: a facade over an S3 client (src/S3Util.js)

    The class [S3Util] holds one field, [s3], the client it builds in its
    constructor, and offers nine [async] methods.  Eight of them build a
    request, hand it to [this.s3.send], log the outcome on the console and
    rethrow on failure; the ninth, [getPublicUrl], builds a string from
    [this.s3.config.region].

    The embedding is shallow.  JavaScript values are a small inductive
    type; an [async] method is a state transformer returning the
    completion its promise settles with; the client of
    [@aws-sdk/client-s3], which is not part of the repository, is a
    parameter (a type class) giving its constructor, its [config]
    property and its [send] method. *)

From Stdlib Require Import String Ascii List ZArith Bool Lia.
From Stdlib Require Import DecimalString.
Import ListNotations.
Local Open Scope list_scope.
Local Open Scope string_scope.
Set Warnings "-register-all".

(* ===================================================================== *)
(** ** JavaScript values and the runtime operations the class uses *)
(* ===================================================================== *)

Module JS.

(** The values that flow through the class.  Strings are the arguments,
    the log lines and the URL; objects are request parameters, responses
    and errors; [Undefined] is what a method without [return] resolves
    with and what reading an absent property gives.  An [Object] is a
    plain data object: own data properties in insertion order, no
    accessors, the default prototype.  A [Function] carries its source
    text, which is what converting it to a string yields.  A [Number] is
    an integral number within the safe range of a double (object sizes,
    counts, epoch times). *)
Inductive Value : Type :=
| Undefined
| Null
| Boolean (b : bool)
| Number (n : Z)
| Str (s : string)
| Function (src : string)
| Array (elems : list Value)
| Object (props : list (string * Value)).

(** How evaluation ends: normally with a value, or abruptly with a
    thrown value.  For an [async] function these are the two ways its
    promise settles: resolved with a value, rejected with a reason. *)
Inductive Completion (A : Type) : Type :=
| Normal (a : A)
| Throw (e : Value).
Arguments Normal {A} a.
Arguments Throw {A} e.

Definition is_nullish (v : Value) : bool :=
  match v with
  | Undefined | Null => true
  | _ => false
  end.

(** The double quote character, for the quoted names in log lines. *)
Definition dq : string := String (ascii_of_nat 34) EmptyString.

(** [new TypeError(message)]: an error object as the class can observe
    it, through its [name] and [message]. *)
Definition TypeError (message : string) : Value :=
  Object [("name", Str "TypeError"); ("message", Str message)].

Definition type_name (v : Value) : string :=
  match v with
  | Null => "null"
  | _ => "undefined"
  end.

(** The message Node gives when a property of [undefined] or [null] is
    read. *)
Definition cannot_read (v : Value) (name : string) : Value :=
  TypeError ("Cannot read properties of " ++ type_name v
             ++ " (reading '" ++ name ++ "')").

Fixpoint lookup (name : string) (props : list (string * Value)) : Value :=
  match props with
  | [] => Undefined
  | (k, v) :: rest => if String.eqb k name then v else lookup name rest
  end.

(** [v.name] for the property names the class reads ([message],
    [Buckets], [Contents], [Body], [config], [region]): a [TypeError] on
    [undefined] and [null]; the own property of an object, [undefined]
    when it has none; [undefined] on primitives, arrays and functions,
    none of which carries a property of one of these names. *)
Definition GetV (v : Value) (name : string) : Completion Value :=
  match v with
  | Undefined | Null => Throw (cannot_read v name)
  | Object props => Normal (lookup name props)
  | _ => Normal Undefined
  end.

Fixpoint join (sep : string) (parts : list string) : string :=
  match parts with
  | [] => ""
  | [p] => p
  | p :: rest => p ++ sep ++ join sep rest
  end.

(** ToString, the conversion a template literal applies to each
    substitution.  An integral number prints in decimal (as ECMAScript
    does below 10^21); an array joins its elements with commas, holes of
    [undefined] and [null] printing as nothing; a plain object prints as
    [[object Object]]. *)
Fixpoint ToString (v : Value) : string :=
  match v with
  | Undefined => "undefined"
  | Null => "null"
  | Boolean true => "true"
  | Boolean false => "false"
  | Number n => NilZero.string_of_int (Z.to_int n)
  | Str s => s
  | Function src => src
  | Array elems =>
      join "," (map (fun e => if is_nullish e then "" else ToString e) elems)
  | Object _ => "[object Object]"
  end.

End JS.

Import JS.

(* ===================================================================== *)
(** ** Requests and console output *)
(* ===================================================================== *)

(** The eight command classes the module imports; each is built from one
    parameter object, [new XCommand(params)]. *)
Inductive Command : Type :=
| CreateBucketCommand (input : Value)
| ListBucketsCommand (input : Value)
| DeleteBucketCommand (input : Value)
| PutObjectCommand (input : Value)
| ListObjectsV2Command (input : Value)
| GetObjectCommand (input : Value)
| DeleteObjectCommand (input : Value)
| PutObjectAclCommand (input : Value).

(** One call of [console.log] or [console.error], with its arguments. *)
Inductive ConsoleEntry : Type :=
| ConsoleLog (args : list Value)
| ConsoleError (args : list Value).

(** [`"${s}"`]: a name between double quotes, as the log lines show it. *)
Definition quoted (s : string) : string := dq ++ s ++ dq.

(* ===================================================================== *)
(** ** The class *)
(* ===================================================================== *)

(** The client library, [@aws-sdk/client-s3], is not part of the
    repository: the class is written against this interface.  [S3Client]
    is the type of client instances and [World] the state of everything
    behind a client (the storage service, the network, the client's own
    caches).  [new_S3Client] is the constructor, which may throw;
    [config] is an instance's [config] property; [send] performs a
    request: it settles with a response or with a failure, and may change
    the world. *)
Class ClientLibrary : Type := {
  S3Client : Type;
  World : Type;
  new_S3Client : Value -> Completion S3Client;
  config : S3Client -> Value;
  send : S3Client -> Command -> World -> Completion Value * World
}.

Section Facade.

Context {lib : ClientLibrary}.

(** An instance of the class: its one field.  [None] is the field before
    the constructor has assigned it ([undefined]). *)
Record S3Util : Type := { s3 : option S3Client }.

(** What a method can read and change: the instance it runs on, the world
    behind the client, the requests handed to [send] so far, and the
    console. *)
Record State : Type := {
  this : S3Util;
  world : World;
  sent : list Command;
  console : list ConsoleEntry
}.

(** A method body: from a state to the completion of its promise and the
    state it leaves.  A throw keeps the state reached so far. *)
Definition M (A : Type) : Type := State -> Completion A * State.

Definition ret {A : Type} (a : A) : M A := fun st => (Normal a, st).

Definition throw {A : Type} (e : Value) : M A := fun st => (Throw e, st).

Definition lift {A : Type} (c : Completion A) : M A := fun st => (c, st).

Definition bind {A B : Type} (m : M A) (k : A -> M B) : M B :=
  fun st =>
    match m st with
    | (Normal a, st1) => k a st1
    | (Throw e, st1) => (Throw e, st1)
    end.

(** [try { body } catch (err) { handler }] *)
Definition try_catch {A : Type} (body : M A) (handler : Value -> M A) : M A :=
  fun st =>
    match body st with
    | (Normal a, st1) => (Normal a, st1)
    | (Throw e, st1) => handler e st1
    end.

Notation "x <- m ;; k" := (bind m (fun x => k))
  (at level 100, m at next level, right associativity).
Notation "m ;; k" := (bind m (fun _ => k))
  (at level 100, right associativity).

Definition console_log (args : list Value) : M Value :=
  fun st =>
    (Normal Undefined,
     {| this := this st; world := world st; sent := sent st;
        console := console st ++ [ConsoleLog args] |}).

Definition console_error (args : list Value) : M Value :=
  fun st =>
    (Normal Undefined,
     {| this := this st; world := world st; sent := sent st;
        console := console st ++ [ConsoleError args] |}).

(** [await this.s3.send(cmd)].  On an instance whose [s3] is unassigned,
    reading [send] throws before anything is sent. *)
Definition s3_send (cmd : Command) : M Value :=
  fun st =>
    match s3 (this st) with
    | None => (Throw (cannot_read Undefined "send"), st)
    | Some client =>
        let (r, w) := send client cmd (world st) in
        (r, {| this := this st; world := w; sent := sent st ++ [cmd];
               console := console st |})
    end.

(** [this.s3.config] *)
Definition s3_config : M Value :=
  fun st =>
    match s3 (this st) with
    | None => (Throw (cannot_read Undefined "config"), st)
    | Some client => (Normal (config client), st)
    end.

(** [new S3Util(region, accessKeyId, secretAccessKey)]: the instance of
    the state becomes the object just built, whose [s3] is the client the
    constructor has built; when building the client throws, no instance
    is built and the state is as it was. *)
Definition constructor (region accessKeyId secretAccessKey : string) : M Value :=
  fun st =>
    match new_S3Client
            (Object [("region", Str region);
                     ("credentials",
                      Object [("accessKeyId", Str accessKeyId);
                              ("secretAccessKey", Str secretAccessKey)])]) with
    | Normal client =>
        (Normal Undefined,
         {| this := {| s3 := Some client |}; world := world st;
            sent := sent st; console := console st |})
    | Throw e => (Throw e, st)
    end.

Definition createBucket (bucketName : string) : M Value :=
  let params := Object [("Bucket", Str bucketName)] in
  try_catch
    (s3_send (CreateBucketCommand params) ;;
     console_log [Str ("Bucket " ++ quoted bucketName ++ " created successfully.")])
    (fun err =>
       message <- lift (GetV err "message") ;;
       console_error [Str ("Error creating bucket " ++ quoted bucketName ++ ":"); message] ;;
       throw err).

Definition listBuckets : M Value :=
  try_catch
    (data <- s3_send (ListBucketsCommand (Object [])) ;;
     buckets <- lift (GetV data "Buckets") ;;
     console_log [Str "Buckets:"; buckets] ;;
     lift (GetV data "Buckets"))
    (fun err =>
       message <- lift (GetV err "message") ;;
       console_error [Str "Error listing buckets:"; message] ;;
       throw err).

Definition deleteBucket (bucketName : string) : M Value :=
  let params := Object [("Bucket", Str bucketName)] in
  try_catch
    (s3_send (DeleteBucketCommand params) ;;
     console_log [Str ("Bucket " ++ quoted bucketName ++ " deleted successfully.")])
    (fun err =>
       message <- lift (GetV err "message") ;;
       console_error [Str ("Error deleting bucket " ++ quoted bucketName ++ ":"); message] ;;
       throw err).

Definition uploadObject (bucketName key : string) (body : Value) : M Value :=
  let params := Object [("Bucket", Str bucketName); ("Key", Str key);
                        ("Body", body); ("ACL", Str "public-read")] in
  try_catch
    (s3_send (PutObjectCommand params) ;;
     console_log [Str ("Object " ++ quoted key ++ " uploaded to bucket "
                       ++ quoted bucketName ++ " successfully.")])
    (fun err =>
       message <- lift (GetV err "message") ;;
       console_error [Str ("Error uploading object " ++ quoted key ++ ":"); message] ;;
       throw err).

Definition getPublicUrl (bucketName key : string) : M Value :=
  try_catch
    (cfg <- s3_config ;;
     region <- lift (GetV cfg "region") ;;
     let publicUrl := "https://" ++ bucketName ++ ".s3." ++ ToString region
                      ++ ".amazonaws.com/" ++ key in
     console_log [Str ("Public URL: " ++ publicUrl)] ;;
     ret (Str publicUrl))
    (fun err =>
       message <- lift (GetV err "message") ;;
       console_error [Str "Error generating public URL:"; message] ;;
       throw err).

Definition listObjects (bucketName : string) : M Value :=
  let params := Object [("Bucket", Str bucketName)] in
  try_catch
    (data <- s3_send (ListObjectsV2Command params) ;;
     contents <- lift (GetV data "Contents") ;;
     console_log [Str ("Objects in bucket " ++ quoted bucketName ++ ":"); contents] ;;
     lift (GetV data "Contents"))
    (fun err =>
       message <- lift (GetV err "message") ;;
       console_error [Str ("Error listing objects in bucket " ++ quoted bucketName ++ ":");
                      message] ;;
       throw err).

Definition downloadObject (bucketName key : string) : M Value :=
  let params := Object [("Bucket", Str bucketName); ("Key", Str key)] in
  try_catch
    (data <- s3_send (GetObjectCommand params) ;;
     console_log [Str ("Object " ++ quoted key ++ " downloaded from bucket "
                       ++ quoted bucketName ++ " successfully.")] ;;
     lift (GetV data "Body"))
    (fun err =>
       message <- lift (GetV err "message") ;;
       console_error [Str ("Error downloading object " ++ quoted key ++ ":"); message] ;;
       throw err).

Definition deleteObject (bucketName key : string) : M Value :=
  let params := Object [("Bucket", Str bucketName); ("Key", Str key)] in
  try_catch
    (s3_send (DeleteObjectCommand params) ;;
     console_log [Str ("Object " ++ quoted key ++ " deleted from bucket "
                       ++ quoted bucketName ++ " successfully.")])
    (fun err =>
       message <- lift (GetV err "message") ;;
       console_error [Str ("Error deleting object " ++ quoted key ++ ":"); message] ;;
       throw err).

Definition makeObjectPublic (bucketName key : string) : M Value :=
  let params := Object [("Bucket", Str bucketName); ("Key", Str key);
                        ("ACL", Str "public-read")] in
  try_catch
    (s3_send (PutObjectAclCommand params) ;;
     console_log [Str ("Object " ++ quoted key ++ " in bucket "
                       ++ quoted bucketName ++ " is now public.")])
    (fun err =>
       message <- lift (GetV err "message") ;;
       console_error [Str ("Error making object " ++ quoted key ++ " public:"); message] ;;
       throw err).

(** A call of one of the nine methods, with its arguments. *)
Inductive Call : Type :=
| CreateBucket (bucketName : string)
| ListBuckets
| DeleteBucket (bucketName : string)
| UploadObject (bucketName key : string) (body : Value)
| GetPublicUrl (bucketName key : string)
| ListObjects (bucketName : string)
| DownloadObject (bucketName key : string)
| DeleteObject (bucketName key : string)
| MakeObjectPublic (bucketName key : string).

Definition invoke (c : Call) : M Value :=
  match c with
  | CreateBucket bucketName => createBucket bucketName
  | ListBuckets => listBuckets
  | DeleteBucket bucketName => deleteBucket bucketName
  | UploadObject bucketName key body => uploadObject bucketName key body
  | GetPublicUrl bucketName key => getPublicUrl bucketName key
  | ListObjects bucketName => listObjects bucketName
  | DownloadObject bucketName key => downloadObject bucketName key
  | DeleteObject bucketName key => deleteObject bucketName key
  | MakeObjectPublic bucketName key => makeObjectPublic bucketName key
  end.

(** The request a method builds for [send]; [getPublicUrl] builds none. *)
Definition request (c : Call) : option Command :=
  match c with
  | CreateBucket bucketName =>
      Some (CreateBucketCommand (Object [("Bucket", Str bucketName)]))
  | ListBuckets => Some (ListBucketsCommand (Object []))
  | DeleteBucket bucketName =>
      Some (DeleteBucketCommand (Object [("Bucket", Str bucketName)]))
  | UploadObject bucketName key body =>
      Some (PutObjectCommand
              (Object [("Bucket", Str bucketName); ("Key", Str key);
                       ("Body", body); ("ACL", Str "public-read")]))
  | GetPublicUrl _ _ => None
  | ListObjects bucketName =>
      Some (ListObjectsV2Command (Object [("Bucket", Str bucketName)]))
  | DownloadObject bucketName key =>
      Some (GetObjectCommand (Object [("Bucket", Str bucketName); ("Key", Str key)]))
  | DeleteObject bucketName key =>
      Some (DeleteObjectCommand (Object [("Bucket", Str bucketName); ("Key", Str key)]))
  | MakeObjectPublic bucketName key =>
      Some (PutObjectAclCommand
              (Object [("Bucket", Str bucketName); ("Key", Str key);
                       ("ACL", Str "public-read")]))
  end.

(** The state in which only the console differs. *)
Definition with_console (st : State) (out : list ConsoleEntry) : State :=
  {| this := this st; world := world st; sent := sent st; console := out |}.

End Facade.

(* ===================================================================== *)
(** ** Assumptions on the client library, and stand-in libraries *)
(* ===================================================================== *)

(** Modelled from the spec: the storage service is absent from the
    repository; the spec's data model has the payload of an object fixed
    by its last upload.  A library stores faithfully when a PutObject
    request that succeeded is followed by a GetObject response whose
    [Body] is the body that was put. *)
Definition stores_faithfully (lib : ClientLibrary) : Prop :=
  forall (client : S3Client) (bucket key : string) (body acl : Value)
         (w w1 : World) (out : Value),
    send client
         (PutObjectCommand (Object [("Bucket", Str bucket); ("Key", Str key);
                                    ("Body", body); ("ACL", acl)])) w
    = (Normal out, w1) ->
    exists (data : Value) (w2 : World),
      send client
           (GetObjectCommand (Object [("Bucket", Str bucket); ("Key", Str key)])) w1
      = (Normal data, w2)
      /\ GetV data "Body" = Normal body.

(** A stand-in library whose [send] answers each request as a script
    says, leaving the world alone; a client is the configuration it was
    built from. *)
Definition scripted (answer : Command -> Completion Value) : ClientLibrary :=
  {| S3Client := Value;
     World := unit;
     new_S3Client := fun cfg => Normal cfg;
     config := fun client => client;
     send := fun _ cmd w => (answer cmd, w) |}.

(** The client of the dependency the module names, [@aws-sdk/client-s3]
    in version 3, as far as [getPublicUrl] can see it: the [config] of a
    client holds under [region] not the string the constructor was given
    but an async function that provides it; [provider] is the text of
    that function.  Requests are acknowledged. *)
Definition sdk_like (provider : string) : ClientLibrary :=
  {| S3Client := Value;
     World := unit;
     new_S3Client := fun cfg => Normal cfg;
     config := fun _ => Object [("region", Function provider)];
     send := fun _ _ w => (Normal (Object []), w) |}.

(** A stand-in library whose world is the list of the requests its
    clients have received; every request is acknowledged. *)
Definition recording : ClientLibrary :=
  {| S3Client := Value;
     World := list Command;
     new_S3Client := fun cfg => Normal cfg;
     config := fun client => client;
     send := fun _ cmd w => (Normal (Object []), (w ++ [cmd])%list) |}.

(** The stand-in that settles every request with the same completion. *)
Definition canned (answer : Completion Value) : ClientLibrary :=
  scripted (fun _ => answer).

Fixpoint stored (bucket key : string) (w : list (string * string * Value))
  : option Value :=
  match w with
  | [] => None
  | (b, k, body) :: rest =>
      if (String.eqb b bucket && String.eqb k key)%bool then Some body
      else stored bucket key rest
  end.

(** The error object of a request for an object that is not there. *)
Definition NoSuchKey : Value :=
  Object [("name", Str "NoSuchKey");
          ("message", Str "The specified key does not exist.")].

Definition memory_send (cmd : Command) (w : list (string * string * Value))
  : Completion Value * list (string * string * Value) :=
  match cmd with
  | PutObjectCommand input =>
      match GetV input "Bucket", GetV input "Key", GetV input "Body" with
      | Normal (Str b), Normal (Str k), Normal body =>
          (Normal (Object []), (b, k, body) :: w)
      | _, _, _ => (Throw (TypeError "Bucket and Key must be strings"), w)
      end
  | GetObjectCommand input =>
      match GetV input "Bucket", GetV input "Key" with
      | Normal (Str b), Normal (Str k) =>
          match stored b k w with
          | Some body => (Normal (Object [("Body", body)]), w)
          | None => (Throw NoSuchKey, w)
          end
      | _, _ => (Throw (TypeError "Bucket and Key must be strings"), w)
      end
  | _ => (Normal (Object []), w)
  end.

(** Modelled from the spec: a storage service held in memory, for the
    object operations the round trip needs.  PutObject records the body
    under (bucket, key), overwriting; GetObject answers with the recorded
    body or fails with [NoSuchKey]; every other request is acknowledged. *)
Definition memory : ClientLibrary :=
  {| S3Client := Value;
     World := list (string * string * Value);
     new_S3Client := fun cfg => Normal cfg;
     config := fun client => client;
     send := fun _ cmd w => memory_send cmd w |}.

(** A state with no instance field assigned, nothing sent, nothing
    logged. *)
Definition fresh (lib : ClientLibrary) (w : World) : State :=
  {| this := {| s3 := None |}; world := w; sent := []; console := [] |}.

(** The state after [new S3Util(region, accessKeyId, secretAccessKey)]. *)
Definition constructed (lib : ClientLibrary) (w : World)
    (region accessKeyId secretAccessKey : string) : State :=
  snd (constructor region accessKeyId secretAccessKey (fresh lib w)).

(** Whether a value is a sequence (an array). *)
Definition is_sequence (v : Value) : bool :=
  match v with
  | Array _ => true
  | _ => false
  end.

(** A library that acknowledges every request with an empty response. *)
Definition acknowledging : ClientLibrary := canned (Normal (Object [])).

(** An instance built over it, for region [us-west-2]. *)
Definition example : State :=
  constructed acknowledging tt "us-west-2" "AKIAEXAMPLE" "wJalrEXAMPLEKEY".

(** A library whose requests all fail with [reason]. *)
Definition rejecting (reason : Value) : ClientLibrary := canned (Throw reason).

(** An instance over a library that rejects with [reason]. *)
Definition failing (reason : Value) : State :=
  constructed (rejecting reason) tt "us-west-2" "AKIAEXAMPLE" "wJalrEXAMPLEKEY".

(** A response to ListBuckets with one bucket, and one to ListObjectsV2
    with one object. *)
Definition one_bucket : Value :=
  Array [Object [("Name", Str "my-bucket");
                 ("CreationDate", Str "2024-08-14T09:30:00.000Z")]].

Definition bucket_listing : Value := Object [("Buckets", one_bucket)].

Definition one_object : Value :=
  Array [Object [("Key", Str "path/file.txt");
                 ("Size", Number 11);
                 ("LastModified", Str "2024-08-14T09:31:00.000Z")]].

Definition object_listing : Value :=
  Object [("Name", Str "my-bucket"); ("KeyCount", Number 1);
          ("Contents", one_object)].

(** The response to ListBuckets of an account that has no buckets: the
    sequence is there, and empty. *)
Definition no_buckets : Value := Object [("Buckets", Array [])].

(** The response to ListObjectsV2 for a bucket that has no objects: it
    carries no [Contents] member. *)
Definition empty_listing : Value :=
  Object [("Name", Str "my-bucket"); ("KeyCount", Number 0)].

Definition listing_script (answerBuckets answerObjects : Value) (cmd : Command)
  : Completion Value :=
  match cmd with
  | ListBucketsCommand _ => Normal answerBuckets
  | ListObjectsV2Command _ => Normal answerObjects
  | _ => Normal (Object [])
  end.

(** An instance over a library that answers the two listings as given. *)
Definition listing (answerBuckets answerObjects : Value) : State :=
  constructed (scripted (listing_script answerBuckets answerObjects)) tt
    "us-west-2" "AKIAEXAMPLE" "wJalrEXAMPLEKEY".

(** An instance over the in-memory store, nothing stored yet. *)
Definition in_memory : State :=
  constructed memory [] "us-west-2" "AKIAEXAMPLE" "wJalrEXAMPLEKEY".

(** A function text, standing for the text of the region provider of the
    dependency (which is longer). *)
Definition provider_text : string := "async () => region".

(** An instance over the client of the dependency, for region
    [us-west-2], the same instance but for its secret, and a second one
    with other credentials. *)
Definition deployed : State :=
  constructed (sdk_like provider_text) tt
    "us-west-2" "AKIAEXAMPLE" "wJalrEXAMPLEKEY".

Definition deployed_resecreted : State :=
  constructed (sdk_like provider_text) tt
    "us-west-2" "AKIAEXAMPLE" "another-secret".

Definition deployed_other : State :=
  constructed (sdk_like provider_text) tt
    "us-west-2" "AKIAOTHER" "another-secret".

(** An instance over the recording library, nothing received yet. *)
Definition recorded : State :=
  constructed recording [] "us-west-2" "AKIAEXAMPLE" "wJalrEXAMPLEKEY".

(** The client the examples are built with. *)
Definition example_client : Value :=
  Object [("region", Str "us-west-2");
          ("credentials",
           Object [("accessKeyId", Str "AKIAEXAMPLE");
                   ("secretAccessKey", Str "wJalrEXAMPLEKEY")])].

(* ===================================================================== *)
(** ** What the methods return, and callers *)
(* ===================================================================== *)

(** The member of the response a method returns ([return data.Buckets],
    [return data.Contents], [return data.Body]); [None] for the methods
    that have no [return] and for [getPublicUrl], which has no response. *)
Definition returned_member (c : Call) : option string :=
  match c with
  | ListBuckets => Some "Buckets"
  | ListObjects _ => Some "Contents"
  | DownloadObject _ _ => Some "Body"
  | _ => None
  end.

(** The requests a run of calls builds, in order. *)
Definition requests (cs : list Call) : list Command :=
  flat_map (fun c => match request c with Some cmd => [cmd] | None => [] end) cs.

(** A caller that awaits the calls one after the other, as the usage
    notes of the module list them, and keeps how each one ended. *)
Fixpoint await_each {lib : ClientLibrary} (cs : list Call) (st : State)
  : list (Completion Value) * State :=
  match cs with
  | [] => ([], st)
  | c :: rest =>
      let (r, st1) := invoke c st in
      let (rs, st2) := await_each rest st1 in
      (r :: rs, st2)
  end.



(** An instance over a library that resolves every request with
    [response]. *)
Definition answering (response : Value) : State :=
  constructed (canned (Normal response)) tt
    "us-west-2" "AKIAEXAMPLE" "wJalrEXAMPLEKEY".

(* ===================================================================== *)
(** ** Proof steps shared by the methods *)
(* ===================================================================== *)

(** Unfolds a method down to the state transformer it denotes. *)
Ltac unfold_method :=
  unfold invoke, createBucket, listBuckets, deleteBucket, uploadObject,
    getPublicUrl, listObjects, downloadObject, deleteObject, makeObjectPublic,
    try_catch, bind, ret, throw, lift, s3_send, s3_config,
    console_log, console_error, with_console in *.

(** Splits on every [match] a method's result goes through. *)
Ltac split_cases :=
  repeat match goal with
         | |- context [s3 ?t] => destruct (s3 t); cbn -[GetV]
         | |- context [send ?c ?cmd ?w] =>
             destruct (send c cmd w) as [[?|?] ?]; cbn -[GetV]
         | |- context [GetV ?v ?n] => destruct (GetV v n); cbn -[GetV]
         end.

(* ===================================================================== *)
(** ** Strings *)
(* ===================================================================== *)

Lemma length_append (a b : string) :
  String.length (a ++ b) = String.length a + String.length b.
Proof.
  induction a as [|c a IH]; simpl; [reflexivity | now rewrite IH].
Qed.

Lemma substring_prefix (b c : string) :
  substring 0 (String.length b) (b ++ c) = b.
Proof.
  induction b as [|x b IH]; simpl.
  - now destruct c.
  - now rewrite IH.
Qed.

Lemma substring_skip (a s : string) (n m : nat) :
  substring (String.length a + n) m (a ++ s) = substring n m s.
Proof.
  induction a as [|x a IH]; simpl; [reflexivity | exact IH].
Qed.

Lemma substring_whole (s : string) : substring 0 (String.length s) s = s.
Proof.
  induction s as [|x s IH]; simpl; [reflexivity | now rewrite IH].
Qed.

Lemma append_cancel_l (p a b : string) : p ++ a = p ++ b -> a = b.
Proof.
  induction p as [|x p IH]; cbn [append]; intro H; [exact H|].
  injection H as H. exact (IH H).
Qed.

Lemma append_assoc (a b c : string) : (a ++ b) ++ c = a ++ b ++ c.
Proof.
  induction a as [|x a IH]; cbn [append]; [reflexivity | now rewrite IH].
Qed.

Lemma append_longer (x : ascii) (b s : string) : s <> String x (b ++ s).
Proof.
  intro H. apply (f_equal String.length) in H.
  cbn [String.length] in H. rewrite length_append in H. lia.
Qed.

Lemma append_cancel_r (a b s : string) : a ++ s = b ++ s -> a = b.
Proof.
  revert b. induction a as [|x a IH]; intros [|y b]; cbn [append]; intro H.
  - reflexivity.
  - exfalso. exact (append_longer y b s H).
  - exfalso. exact (append_longer x a s (eq_sym H)).
  - injection H as -> H. f_equal. exact (IH b H).
Qed.

(* ===================================================================== *)
(** ** The runtime *)
(* ===================================================================== *)

Lemma GetV_defined (v : Value) (name : string) :
  is_nullish v = false -> exists r : Value, GetV v name = Normal r.
Proof.
  destruct v; simpl; intro H; try discriminate; eauto.
Qed.

Lemma GetV_nullish (v : Value) (name : string) :
  is_nullish v = true -> GetV v name = Throw (cannot_read v name).
Proof.
  destruct v; simpl; intro H; try discriminate; reflexivity.
Qed.

Lemma stored_latest (b k : string) (body : Value) (w : list (string * string * Value)) :
  stored b k ((b, k, body) :: w) = Some body.
Proof.
  simpl. now rewrite !String.eqb_refl.
Qed.

Lemma memory_stores_faithfully : stores_faithfully memory.
Proof.
  intros client bucket key body acl w w1 out H.
  simpl in H. injection H as _ <-.
  exists (Object [("Body", body)]), ((bucket, key, body) :: w).
  split; [|reflexivity].
  change (memory_send
            (GetObjectCommand (Object [("Bucket", Str bucket); ("Key", Str key)]))
            ((bucket, key, body) :: w)
          = (Normal (Object [("Body", body)]), (bucket, key, body) :: w)).
  unfold memory_send.
  change (GetV (Object [("Bucket", Str bucket); ("Key", Str key)]) "Bucket")
    with (Normal (Str bucket)).
  change (GetV (Object [("Bucket", Str bucket); ("Key", Str key)]) "Key")
    with (Normal (Str key)).
  cbv iota beta. now rewrite stored_latest.
Qed.

(* ===================================================================== *)
(** ** The class: construction and [getPublicUrl] *)
(* ===================================================================== *)

Section Construction.

Context {lib : ClientLibrary}.

Lemma constructor_inv (region accessKeyId secretAccessKey : string)
    (st0 st : State) (v : Value) :
  constructor region accessKeyId secretAccessKey st0 = (Normal v, st) ->
  exists client : S3Client,
    new_S3Client
      (Object [("region", Str region);
               ("credentials",
                Object [("accessKeyId", Str accessKeyId);
                        ("secretAccessKey", Str secretAccessKey)])])
    = Normal client
    /\ v = Undefined
    /\ st = {| this := {| s3 := Some client |}; world := world st0;
               sent := sent st0; console := console st0 |}.
Proof.
  unfold constructor.
  destruct (new_S3Client _) as [client|e] eqn:E; intro H.
  - injection H as <- <-. exists client. auto.
  - discriminate.
Qed.

(** What one call of [getPublicUrl] does, whatever value the client shows
    under [config.region]: it resolves with the template filled in, and
    writes one line to the console. *)
Lemma getPublicUrl_run (bucket key : string) (st : State)
    (client : S3Client) (v : Value) :
  s3 (this st) = Some client ->
  GetV (config client) "region" = Normal v ->
  getPublicUrl bucket key st
  = (Normal (Str ("https://" ++ bucket ++ ".s3." ++ ToString v
                  ++ ".amazonaws.com/" ++ key)),
     with_console st
       (console st
        ++ [ConsoleLog
              [Str ("Public URL: " ++ "https://" ++ bucket ++ ".s3."
                    ++ ToString v ++ ".amazonaws.com/" ++ key)]])).
Proof.
  intros Hs Hr. unfold_method. rewrite Hs, Hr. reflexivity.
Qed.

(** When the client shows a function under [config.region], the text of
    the function is what lands in the URL. *)
Lemma getPublicUrl_region_function (bucket key src : string) (st : State)
    (client : S3Client) :
  s3 (this st) = Some client ->
  GetV (config client) "region" = Normal (Function src) ->
  fst (getPublicUrl bucket key st)
  = Normal (Str ("https://" ++ bucket ++ ".s3." ++ src ++ ".amazonaws.com/" ++ key)).
Proof.
  intros Hs Hr. rewrite (getPublicUrl_run _ _ _ _ _ Hs Hr). reflexivity.
Qed.

(** C1.  What the code does in place of the claim.  On a client that
    shows a function under [config.region], as the client of the
    dependency does, [getPublicUrl] resolves, for every bucket name and
    key, with the template filled with the text of that function where
    the region should stand: not with
    [https://{bucket}.s3.{region}.amazonaws.com/{key}], whatever region
    string the instance was constructed with. *)
Theorem getPublicUrl_embeds_provider
    (bucket key region provider : string) (st : State) (client : S3Client) :
  s3 (this st) = Some client ->
  GetV (config client) "region" = Normal (Function provider) ->
  provider <> region ->
  fst (getPublicUrl bucket key st)
  = Normal (Str ("https://" ++ bucket ++ ".s3." ++ provider
                 ++ ".amazonaws.com/" ++ key))
  /\ fst (getPublicUrl bucket key st)
     <> Normal (Str ("https://" ++ bucket ++ ".s3." ++ region
                     ++ ".amazonaws.com/" ++ key)).
Proof.
  intros Hs Hr Hneq.
  rewrite (getPublicUrl_region_function _ _ _ _ _ Hs Hr).
  split; [reflexivity|].
  intro H. injection H as H. apply append_cancel_l in H.
  injection H as H. apply append_cancel_r in H. exact (Hneq H).
Qed.

End Construction.

Lemma getPublicUrl_embeds_provider_witness :
  s3 (this deployed) = Some example_client
  /\ GetV (config (ClientLibrary := sdk_like provider_text) example_client) "region"
     = Normal (Function provider_text)
  /\ provider_text <> "us-west-2"
  /\ fst (getPublicUrl "my-bucket" "path/file.txt" deployed)
     = Normal (Str "https://my-bucket.s3.async () => region.amazonaws.com/path/file.txt")
  /\ fst (getPublicUrl "my-bucket" "path/file.txt" deployed)
     <> Normal (Str "https://my-bucket.s3.us-west-2.amazonaws.com/path/file.txt").
Proof.
  split; [reflexivity|]. split; [reflexivity|].
  assert (N : provider_text <> "us-west-2") by (intro H; discriminate H).
  split; [exact N|].
  exact (@getPublicUrl_embeds_provider (sdk_like provider_text)
           "my-bucket" "path/file.txt" "us-west-2" provider_text
           deployed example_client eq_refl eq_refl N).
Defined.

Section PublicUrl.

Context {lib : ClientLibrary}.

(** C10.  [getPublicUrl] neither validates nor encodes: for every pair of
    strings, the empty string and strings with spaces, [/], [?] or [#]
    included, it resolves, and the bucket name and the key stand in the
    result character for character, the bucket name right after
    [https://] and the key at the end, the length of the result being the
    sum of the lengths of its parts. *)
Theorem getPublicUrl_verbatim
    (bucket key : string) (st : State) (client : S3Client) (v : Value) :
  s3 (this st) = Some client ->
  GetV (config client) "region" = Normal v ->
  let url := "https://" ++ bucket ++ ".s3." ++ ToString v
             ++ ".amazonaws.com/" ++ key in
  fst (getPublicUrl bucket key st) = Normal (Str url)
  /\ String.length url
     = 27 + String.length bucket + String.length (ToString v) + String.length key
  /\ substring 8 (String.length bucket) url = bucket
  /\ substring (27 + String.length bucket + String.length (ToString v))
       (String.length key) url = key.
Proof.
  intros Hs Hr url. subst url.
  rewrite (getPublicUrl_run _ _ _ _ _ Hs Hr).
  split; [reflexivity|]. split; [|split].
  - cbn [append String.length]. rewrite !length_append.
    cbn [append String.length]. rewrite !length_append.
    cbn [append String.length]. lia.
  - cbn [append substring]. apply substring_prefix.
  - replace (27 + String.length bucket + String.length (ToString v))
      with (8 + (String.length bucket
                 + (4 + (String.length (ToString v) + 15)))) by lia.
    cbn [append substring Nat.add].
    rewrite substring_skip. cbn [append substring Nat.add].
    rewrite substring_skip. cbn [append substring Nat.add].
    apply substring_whole.
Qed.

(** C4, as the code has it.  The value [getPublicUrl] resolves with is a
    function of the bucket name, the key and the value the client shows
    under [config.region], and of nothing else: on two instances whose
    clients show the same value there (whatever the credentials and the
    states they run in) it resolves, for every pair of strings, with the
    same string; it hands no request to the client and leaves the
    instance and the world as they were; its one effect is the line
    [Public URL: ...] it writes on the console, which a repeated call
    writes again while resolving with the same string. *)
Theorem getPublicUrl_result_pure
    (bucket key : string) (st1 st2 : State) (client1 client2 : S3Client)
    (v : Value) :
  s3 (this st1) = Some client1 ->
  s3 (this st2) = Some client2 ->
  GetV (config client1) "region" = Normal v ->
  GetV (config client2) "region" = Normal v ->
  let url := "https://" ++ bucket ++ ".s3." ++ ToString v
             ++ ".amazonaws.com/" ++ key in
  fst (getPublicUrl bucket key st1) = Normal (Str url)
  /\ fst (getPublicUrl bucket key st2) = Normal (Str url)
  /\ snd (getPublicUrl bucket key st1)
     = with_console st1 (console st1 ++ [ConsoleLog [Str ("Public URL: " ++ url)]])
  /\ fst (getPublicUrl bucket key (snd (getPublicUrl bucket key st1)))
     = Normal (Str url).
Proof.
  intros Hs1 Hs2 Hr1 Hr2 url. subst url.
  rewrite (getPublicUrl_run _ _ _ _ _ Hs1 Hr1).
  rewrite (getPublicUrl_run _ _ _ _ _ Hs2 Hr2).
  repeat split.
  cbn [snd].
  rewrite (getPublicUrl_run bucket key _ client1 v); [reflexivity| |exact Hr1].
  exact Hs1.
Qed.

End PublicUrl.

Lemma getPublicUrl_verbatim_witness :
  s3 (this example)
  = Some (Object [("region", Str "us-west-2");
                  ("credentials",
                   Object [("accessKeyId", Str "AKIAEXAMPLE");
                           ("secretAccessKey", Str "wJalrEXAMPLEKEY")])])
  /\ GetV (Object [("region", Str "us-west-2");
                   ("credentials",
                    Object [("accessKeyId", Str "AKIAEXAMPLE");
                            ("secretAccessKey", Str "wJalrEXAMPLEKEY")])]) "region"
     = Normal (Str "us-west-2")
  /\ fst (getPublicUrl "my bucket" "dir/a b?x=1#top" example)
     = Normal (Str "https://my bucket.s3.us-west-2.amazonaws.com/dir/a b?x=1#top")
  /\ String.length "https://my bucket.s3.us-west-2.amazonaws.com/dir/a b?x=1#top"
     = 27 + 9 + 9 + 15
  /\ substring 8 9 "https://my bucket.s3.us-west-2.amazonaws.com/dir/a b?x=1#top"
     = "my bucket"
  /\ substring (27 + 9 + 9) 15
       "https://my bucket.s3.us-west-2.amazonaws.com/dir/a b?x=1#top"
     = "dir/a b?x=1#top".
Proof.
  split; [reflexivity|]. split; [reflexivity|].
  exact (@getPublicUrl_verbatim acknowledging "my bucket" "dir/a b?x=1#top"
           example _ (Str "us-west-2") eq_refl eq_refl).
Defined.

(** With empty strings the template is all that is left. *)
Example getPublicUrl_empty_strings :
  fst (getPublicUrl "" "" example)
  = Normal (Str "https://.s3.us-west-2.amazonaws.com/").
Proof. reflexivity. Qed.

(** The claim C4 as stated does not hold: a call changes the state, by
    the line it writes on the console, and a second call writes the line
    a second time. *)
Lemma getPublicUrl_writes_console :
  console example = []
  /\ console (snd (getPublicUrl "my-bucket" "path/file.txt" example))
     = [ConsoleLog
          [Str "Public URL: https://my-bucket.s3.us-west-2.amazonaws.com/path/file.txt"]]
  /\ console (snd (getPublicUrl "my-bucket" "path/file.txt"
                     (snd (getPublicUrl "my-bucket" "path/file.txt" example))))
     = [ConsoleLog
          [Str "Public URL: https://my-bucket.s3.us-west-2.amazonaws.com/path/file.txt"];
        ConsoleLog
          [Str "Public URL: https://my-bucket.s3.us-west-2.amazonaws.com/path/file.txt"]]
  /\ snd (getPublicUrl "my-bucket" "path/file.txt" example) <> example.
Proof.
  repeat split. intro H. apply (f_equal console) in H. discriminate H.
Qed.

Lemma getPublicUrl_result_pure_witness :
  s3 (this deployed) = Some example_client
  /\ s3 (this deployed_other)
     = Some (Object [("region", Str "us-west-2");
                     ("credentials",
                      Object [("accessKeyId", Str "AKIAOTHER");
                              ("secretAccessKey", Str "another-secret")])])
  /\ GetV (config (ClientLibrary := sdk_like provider_text) example_client) "region"
     = Normal (Function provider_text)
  /\ (fst (getPublicUrl "my-bucket" "path/file.txt" deployed)
      = Normal (Str "https://my-bucket.s3.async () => region.amazonaws.com/path/file.txt")
      /\ fst (getPublicUrl "my-bucket" "path/file.txt" deployed_other)
         = Normal (Str "https://my-bucket.s3.async () => region.amazonaws.com/path/file.txt")
      /\ snd (getPublicUrl "my-bucket" "path/file.txt" deployed)
         = with_console deployed
             (console deployed
              ++ [ConsoleLog
                    [Str "Public URL: https://my-bucket.s3.async () => region.amazonaws.com/path/file.txt"]])
      /\ fst (getPublicUrl "my-bucket" "path/file.txt"
                (snd (getPublicUrl "my-bucket" "path/file.txt" deployed)))
         = Normal (Str "https://my-bucket.s3.async () => region.amazonaws.com/path/file.txt")).
Proof.
  split; [reflexivity|]. split; [reflexivity|]. split; [reflexivity|].
  exact (@getPublicUrl_result_pure (sdk_like provider_text)
           "my-bucket" "path/file.txt" deployed deployed_other
           example_client _ (Function provider_text)
           eq_refl eq_refl eq_refl eq_refl).
Defined.

(* ===================================================================== *)
(** ** The methods that reach the client *)
(* ===================================================================== *)

Section Remote.

Context {lib : ClientLibrary}.

(** C2.  Whatever the bucket name, the key and the payload,
    [uploadObject] on a constructed instance calls [send] of the client,
    once, with a PutObject whose parameters are the bucket name, the key
    and the payload it was given and [ACL: "public-read"]: the world is
    the one that [send] leaves, the call resolves when that [send]
    resolves and rejects with the failure of that [send] when it fails.
    The method has no argument by which a caller could choose another
    policy. *)
Theorem uploadObject_public_read
    (bucket key : string) (body : Value) (st : State) (client : S3Client) :
  s3 (this st) = Some client ->
  let params := Object [("Bucket", Str bucket); ("Key", Str key);
                        ("Body", body); ("ACL", Str "public-read")] in
  let cmd := PutObjectCommand params in
  GetV params "ACL" = Normal (Str "public-read")
  /\ sent (snd (uploadObject bucket key body st)) = (sent st ++ [cmd])%list
  /\ world (snd (uploadObject bucket key body st))
     = snd (send client cmd (world st))
  /\ (forall data : Value,
         fst (send client cmd (world st)) = Normal data ->
         fst (uploadObject bucket key body st) = Normal Undefined)
  /\ (forall e : Value,
         fst (send client cmd (world st)) = Throw e ->
         is_nullish e = false ->
         fst (uploadObject bucket key body st) = Throw e).
Proof.
  intros Hs params cmd. subst cmd params. split; [reflexivity|].
  unfold_method. rewrite Hs.
  destruct (send client _ (world st)) as [[data|e] w1]; cbn -[GetV].
  - repeat split. intros e H. discriminate H.
  - split; [|split; [|split]].
    + destruct (GetV e "message"); reflexivity.
    + destruct (GetV e "message"); reflexivity.
    + intros data H. discriminate H.
    + intros e' H Hn. injection H as <-.
      destruct (GetV_defined e "message" Hn) as [m Hm]. rewrite Hm. reflexivity.
Qed.


(** C5, as the code has it.  When the client resolves the request,
    [listBuckets] resolves with the [Buckets] member of the response and
    [listObjects] with its [Contents] member, unchanged: the sequence of
    descriptors the service supplied, empty when the service supplied an
    empty one, and no sequence when the response has no such member. *)
Theorem listings_pass_through
    (bucket : string) (st : State) (client : S3Client)
    (dataB vB dataO vO : Value) (wB wO : World) :
  s3 (this st) = Some client ->
  (send client (ListBucketsCommand (Object [])) (world st) = (Normal dataB, wB) ->
   GetV dataB "Buckets" = Normal vB ->
   fst (listBuckets st) = Normal vB)
  /\ (send client (ListObjectsV2Command (Object [("Bucket", Str bucket)])) (world st)
      = (Normal dataO, wO) ->
      GetV dataO "Contents" = Normal vO ->
      fst (listObjects bucket st) = Normal vO).
Proof.
  intro Hs. split; intros Hsend Hv; unfold_method;
    rewrite Hs, Hsend; cbn; rewrite Hv; reflexivity.
Qed.

(** C6.  When the client rejects the DeleteObject request with an error
    object, which is how a not-found report of the service reaches the
    class, [deleteObject] ends (it does not get stuck), writes the message
    of the error on the console and rejects with that same error object:
    it does not resolve. *)
Theorem deleteObject_surfaces_failure
    (bucket key : string) (st : State) (client : S3Client)
    (props : list (string * Value)) (w1 : World) :
  s3 (this st) = Some client ->
  send client
       (DeleteObjectCommand (Object [("Bucket", Str bucket); ("Key", Str key)]))
       (world st)
  = (Throw (Object props), w1) ->
  deleteObject bucket key st
  = (Throw (Object props),
     {| this := this st; world := w1;
        sent := (sent st
                 ++ [DeleteObjectCommand
                       (Object [("Bucket", Str bucket); ("Key", Str key)])])%list;
        console := (console st
                    ++ [ConsoleError
                          [Str ("Error deleting object " ++ quoted key ++ ":");
                           lookup "message" props]])%list |}).
Proof.
  intros Hs Hsend. unfold_method. rewrite Hs, Hsend. reflexivity.
Qed.

(** A method that resolves got a response from the client. *)
Lemma uploadObject_resolved
    (bucket key : string) (body v : Value) (st st1 : State) (client : S3Client) :
  s3 (this st) = Some client ->
  uploadObject bucket key body st = (Normal v, st1) ->
  exists (out : Value),
    send client
         (PutObjectCommand (Object [("Bucket", Str bucket); ("Key", Str key);
                                    ("Body", body); ("ACL", Str "public-read")]))
         (world st)
    = (Normal out, world st1)
    /\ this st1 = this st.
Proof.
  intros Hs. unfold_method. rewrite Hs.
  destruct (send client _ (world st)) as [[out|e] w1].
  - intro H. injection H as _ <-. exists out. split; reflexivity.
  - destruct (GetV e "message"); intro H; discriminate H.
Qed.

(** C7.  Over a library that stores faithfully, for every bucket name,
    key and payload: when [uploadObject] has resolved, [downloadObject]
    for the same bucket name and key, run next, resolves with the payload
    that was uploaded. *)
Theorem upload_then_download
    (bucket key : string) (body v : Value) (st st1 : State) (client : S3Client) :
  stores_faithfully lib ->
  s3 (this st) = Some client ->
  uploadObject bucket key body st = (Normal v, st1) ->
  fst (downloadObject bucket key st1) = Normal body.
Proof.
  intros F Hs Hup.
  destruct (uploadObject_resolved _ _ _ _ _ _ _ Hs Hup) as (out & Hput & Hthis).
  destruct (F _ _ _ _ _ _ _ _ Hput) as (data & w2 & Hget & Hbody).
  unfold_method. rewrite Hthis, Hs, Hget. cbn. rewrite Hbody. reflexivity.
Qed.

End Remote.

Lemma uploadObject_public_read_witness :
  s3 (this recorded) = Some example_client
  /\ (GetV (Object [("Bucket", Str "my-bucket"); ("Key", Str "path/file.txt");
                    ("Body", Str "hello world"); ("ACL", Str "public-read")]) "ACL"
      = Normal (Str "public-read")
      /\ sent (snd (uploadObject "my-bucket" "path/file.txt" (Str "hello world")
                      recorded))
         = [PutObjectCommand
              (Object [("Bucket", Str "my-bucket"); ("Key", Str "path/file.txt");
                       ("Body", Str "hello world"); ("ACL", Str "public-read")])]
      /\ world (snd (uploadObject "my-bucket" "path/file.txt" (Str "hello world")
                       recorded))
         = [PutObjectCommand
              (Object [("Bucket", Str "my-bucket"); ("Key", Str "path/file.txt");
                       ("Body", Str "hello world"); ("ACL", Str "public-read")])]
      /\ (forall data : Value,
             Normal (Object []) = Normal data ->
             fst (uploadObject "my-bucket" "path/file.txt" (Str "hello world")
                    recorded)
             = Normal Undefined)
      /\ (forall e : Value,
             Normal (Object []) = Throw e ->
             is_nullish e = false ->
             fst (uploadObject "my-bucket" "path/file.txt" (Str "hello world")
                    recorded)
             = Throw e)).
Proof.
  split; [reflexivity|].
  exact (@uploadObject_public_read recording "my-bucket" "path/file.txt"
           (Str "hello world") recorded example_client eq_refl).
Defined.


(** The claim C5 as stated does not hold for an empty bucket: the
    response then has no [Contents] member, and [listObjects] resolves
    with [undefined], which is not a sequence. *)
Lemma listing_without_member_is_undefined :
  send (ClientLibrary := scripted (listing_script no_buckets empty_listing))
       example_client
       (ListObjectsV2Command (Object [("Bucket", Str "my-bucket")])) tt
  = (Normal empty_listing, tt)
  /\ fst (listObjects "my-bucket" (listing no_buckets empty_listing))
     = Normal Undefined
  /\ is_sequence Undefined = false.
Proof.
  repeat split.
Qed.

Lemma listings_pass_through_witness :
  s3 (this (listing no_buckets object_listing)) = Some example_client
  /\ (send (ClientLibrary := scripted (listing_script no_buckets object_listing))
           example_client (ListBucketsCommand (Object [])) tt
      = (Normal no_buckets, tt)
      /\ GetV no_buckets "Buckets" = Normal (Array [])
      /\ fst (listBuckets (listing no_buckets object_listing)) = Normal (Array []))
  /\ (send (ClientLibrary := scripted (listing_script no_buckets object_listing))
           example_client
           (ListObjectsV2Command (Object [("Bucket", Str "my-bucket")])) tt
      = (Normal object_listing, tt)
      /\ GetV object_listing "Contents" = Normal one_object
      /\ fst (listObjects "my-bucket" (listing no_buckets object_listing))
         = Normal one_object).
Proof.
  split; [reflexivity|].
  destruct (@listings_pass_through
              (scripted (listing_script no_buckets object_listing))
              "my-bucket" (listing no_buckets object_listing) example_client
              no_buckets (Array []) object_listing one_object tt tt eq_refl)
    as [HB HO].
  split.
  - split; [reflexivity|]. split; [reflexivity|]. exact (HB eq_refl eq_refl).
  - split; [reflexivity|]. split; [reflexivity|]. exact (HO eq_refl eq_refl).
Defined.

Lemma deleteObject_surfaces_failure_witness :
  s3 (this (failing NoSuchKey)) = Some example_client
  /\ send (ClientLibrary := rejecting NoSuchKey) example_client
          (DeleteObjectCommand
             (Object [("Bucket", Str "my-bucket"); ("Key", Str "missing.txt")])) tt
     = (Throw NoSuchKey, tt)
  /\ deleteObject "my-bucket" "missing.txt" (failing NoSuchKey)
     = (Throw NoSuchKey,
        {| this := this (failing NoSuchKey); world := tt;
           sent := [DeleteObjectCommand
                      (Object [("Bucket", Str "my-bucket"); ("Key", Str "missing.txt")])];
           console := [ConsoleError
                         [Str ("Error deleting object " ++ quoted "missing.txt" ++ ":");
                          Str "The specified key does not exist."]] |}).
Proof.
  split; [reflexivity|]. split; [reflexivity|].
  exact (@deleteObject_surfaces_failure (rejecting NoSuchKey)
           "my-bucket" "missing.txt" (failing NoSuchKey) example_client
           [("name", Str "NoSuchKey");
            ("message", Str "The specified key does not exist.")]
           tt eq_refl eq_refl).
Defined.

Lemma upload_then_download_witness :
  stores_faithfully memory
  /\ s3 (this in_memory) = Some example_client
  /\ uploadObject "my-bucket" "path/file.txt" (Str "hello world") in_memory
     = (Normal Undefined,
        snd (uploadObject "my-bucket" "path/file.txt" (Str "hello world") in_memory))
  /\ fst (downloadObject "my-bucket" "path/file.txt"
            (snd (uploadObject "my-bucket" "path/file.txt" (Str "hello world")
                    in_memory)))
     = Normal (Str "hello world").
Proof.
  split; [exact memory_stores_faithfully|]. split; [reflexivity|].
  split; [reflexivity|].
  exact (@upload_then_download memory "my-bucket" "path/file.txt"
           (Str "hello world") Undefined in_memory _ example_client
           memory_stores_faithfully eq_refl eq_refl).
Defined.

(* ===================================================================== *)
(** ** Frame properties: requests, console, instance *)
(* ===================================================================== *)

Section Frame.

Context {lib : ClientLibrary}.

Lemma call_keeps_instance (c : Call) (st : State) :
  this (snd (invoke c st)) = this st.
Proof.
  destruct c; unfold_method; split_cases; reflexivity.
Qed.

(** The world after a call is the one the [send] of its request leaves. *)
Lemma invoke_world (c : Call) (st : State) (client : S3Client) :
  s3 (this st) = Some client ->
  world (snd (invoke c st))
  = match request c with
    | Some cmd => snd (send client cmd (world st))
    | None => world st
    end.
Proof.
  intro Hs.
  destruct c; unfold_method; rewrite Hs; cbn [request];
    try (destruct (send client _ (world st)) as [[data|e] w1]; cbn -[GetV]);
    repeat match goal with
           | |- context [GetV ?v ?n] => destruct (GetV v n); cbn -[GetV]
           end; reflexivity.
Qed.

(** On a constructed instance a call hands the client the request it
    builds, once, however the call ends; [getPublicUrl] hands it none. *)
Lemma invoke_sends (c : Call) (st : State) (client : S3Client) :
  s3 (this st) = Some client ->
  sent (snd (invoke c st))
  = (sent st ++ match request c with Some cmd => [cmd] | None => [] end)%list.
Proof.
  intro Hs. destruct c; unfold_method; rewrite Hs; cbn [request];
    split_cases; rewrite ?app_nil_r; reflexivity.
Qed.

(** X11.  The other side of a failure: when the client rejects with
    [null] or [undefined], the handler fails on [err.message]; the request
    was sent once, nothing is written on the console, and the call rejects
    with the [TypeError] of that read, not with the value of the client. *)
Lemma nullish_failure_replaced
    (c : Call) (cmd : Command) (st : State) (client : S3Client)
    (e : Value) (w1 : World) :
  s3 (this st) = Some client ->
  request c = Some cmd ->
  send client cmd (world st) = (Throw e, w1) ->
  is_nullish e = true ->
  invoke c st
  = (Throw (cannot_read e "message"),
     {| this := this st; world := w1; sent := (sent st ++ [cmd])%list;
        console := console st |}).
Proof.
  intros Hs Hreq Hsend Hn.
  pose proof (GetV_nullish e "message" Hn) as Hm.
  destruct c; cbn [request] in Hreq; try discriminate;
    injection Hreq as <-; unfold_method; rewrite Hs, Hsend, Hm; reflexivity.
Qed.

(** What a call writes and how it ends are fixed by the console before
    the call, by what the client shows under [config.region] and by how
    the client settles the request of the call. *)
Lemma invoke_console (c : Call) (st1 st2 : State) (client1 client2 : S3Client) :
  s3 (this st1) = Some client1 ->
  s3 (this st2) = Some client2 ->
  console st1 = console st2 ->
  GetV (config client1) "region" = GetV (config client2) "region" ->
  (forall cmd : Command,
      request c = Some cmd ->
      fst (send client1 cmd (world st1)) = fst (send client2 cmd (world st2))) ->
  console (snd (invoke c st1)) = console (snd (invoke c st2))
  /\ fst (invoke c st1) = fst (invoke c st2).
Proof.
  intros Hs1 Hs2 Hc Hr Hsend.
  destruct c; cbn [request] in Hsend;
    try (specialize (Hsend _ eq_refl);
         unfold_method; rewrite Hs1, Hs2;
         destruct (send client1 _ (world st1)) as [r1 w1];
         destruct (send client2 _ (world st2)) as [r2 w2];
         cbn [fst] in Hsend; subst r2;
         destruct r1 as [data|e]; cbn [fst snd console];
         repeat match goal with
                | |- context [GetV ?v ?n] =>
                    destruct (GetV v n) eqn:?; cbn [fst snd console]
                end;
         rewrite ?Hc; split; reflexivity).
  unfold_method. rewrite Hs1, Hs2, Hr.
  destruct (GetV (config client2) "region") as [v|e]; cbn [fst snd console].
  - rewrite Hc. split; reflexivity.
  - destruct (GetV e "message"); cbn [fst snd console]; rewrite ?Hc; split; reflexivity.
Qed.

(** C8.  Two instances constructed from the same state with the same
    region and access key identifier, and with different secrets, the
    two clients showing the same under [config.region].  Construction
    writes nothing on the console.  Run the same call on the one and on
    the other, in any two states whose consoles agree: when the client
    settles the requests the same way for both, the call writes the same
    lines and ends the same way for both.  The secret has no way into the
    console. *)
Theorem secret_not_logged
    (region accessKeyId secret1 secret2 : string) (c : Call)
    (st0 st1 st2 sta stb : State) :
  constructor region accessKeyId secret1 st0 = (Normal Undefined, st1) ->
  constructor region accessKeyId secret2 st0 = (Normal Undefined, st2) ->
  this sta = this st1 ->
  this stb = this st2 ->
  console sta = console stb ->
  (forall client1 client2 : S3Client,
      s3 (this st1) = Some client1 ->
      s3 (this st2) = Some client2 ->
      GetV (config client1) "region" = GetV (config client2) "region") ->
  (forall (client1 client2 : S3Client) (cmd : Command),
      s3 (this st1) = Some client1 ->
      s3 (this st2) = Some client2 ->
      fst (send client1 cmd (world sta)) = fst (send client2 cmd (world stb))) ->
  console st1 = console st0
  /\ console st2 = console st0
  /\ console (snd (invoke c sta)) = console (snd (invoke c stb))
  /\ fst (invoke c sta) = fst (invoke c stb).
Proof.
  intros H1 H2 Ha Hb Hc Hregion Hsend.
  destruct (constructor_inv _ _ _ _ _ _ H1) as (c1 & _ & _ & E1).
  destruct (constructor_inv _ _ _ _ _ _ H2) as (c2 & _ & _ & E2).
  assert (Hs1 : s3 (this st1) = Some c1) by (rewrite E1; reflexivity).
  assert (Hs2 : s3 (this st2) = Some c2) by (rewrite E2; reflexivity).
  split; [rewrite E1; reflexivity|]. split; [rewrite E2; reflexivity|].
  apply (invoke_console c sta stb c1 c2).
  - now rewrite Ha.
  - now rewrite Hb.
  - exact Hc.
  - exact (Hregion c1 c2 Hs1 Hs2).
  - intros cmd _. apply Hsend; assumption.
Qed.

(** C9.  Each of the nine methods, which with the constructor are the
    ten members of the class, leaves the instance as it found it,
    whatever the state, the arguments and the answer of the client, and
    so does every run of calls awaited one after the other; the instance
    has the one field [s3], which construction sets to the client it has
    built. *)
Theorem methods_keep_instance
    (c : Call) (cs : list Call) (st : State)
    (region accessKeyId secretAccessKey : string) :
  this (snd (invoke c st)) = this st
  /\ this (snd (await_each cs st)) = this st
  /\ this (snd (constructor region accessKeyId secretAccessKey st))
     = match new_S3Client
               (Object [("region", Str region);
                        ("credentials",
                         Object [("accessKeyId", Str accessKeyId);
                                 ("secretAccessKey", Str secretAccessKey)])]) with
       | Normal client => {| s3 := Some client |}
       | Throw _ => this st
       end.
Proof.
  split; [apply call_keeps_instance|]. split.
  - revert st. induction cs as [|c' cs IH]; intro st; [reflexivity|].
    cbn [await_each].
    pose proof (call_keeps_instance c' st) as H.
    destruct (invoke c' st) as [r st1]. cbn [snd] in H.
    specialize (IH st1).
    destruct (await_each cs st1) as [rs st2]. cbn [snd] in *.
    now rewrite IH.
  - unfold constructor. destruct (new_S3Client _); reflexivity.
Qed.

End Frame.

Lemma secret_not_logged_witness :
  constructor "us-west-2" "AKIAEXAMPLE" "wJalrEXAMPLEKEY"
    (fresh (sdk_like provider_text) tt)
  = (Normal Undefined, deployed)
  /\ constructor "us-west-2" "AKIAEXAMPLE" "another-secret"
       (fresh (sdk_like provider_text) tt)
     = (Normal Undefined, deployed_resecreted)
  /\ this deployed = this deployed
  /\ this deployed_resecreted = this deployed_resecreted
  /\ console deployed = console deployed_resecreted
  /\ (forall client1 client2 : Value,
         s3 (this deployed) = Some client1 ->
         s3 (this deployed_resecreted) = Some client2 ->
         GetV (config (ClientLibrary := sdk_like provider_text) client1) "region"
         = GetV (config (ClientLibrary := sdk_like provider_text) client2) "region")
  /\ (forall (client1 client2 : Value) (cmd : Command),
         s3 (this deployed) = Some client1 ->
         s3 (this deployed_resecreted) = Some client2 ->
         fst (send (ClientLibrary := sdk_like provider_text) client1 cmd tt)
         = fst (send (ClientLibrary := sdk_like provider_text) client2 cmd tt))
  /\ (console deployed = []
      /\ console deployed_resecreted = []
      /\ console (snd (invoke (UploadObject "my-bucket" "path/file.txt"
                                 (Str "hello world")) deployed))
         = console (snd (invoke (UploadObject "my-bucket" "path/file.txt"
                                   (Str "hello world")) deployed_resecreted))
      /\ fst (invoke (UploadObject "my-bucket" "path/file.txt"
                        (Str "hello world")) deployed)
         = fst (invoke (UploadObject "my-bucket" "path/file.txt"
                          (Str "hello world")) deployed_resecreted)).
Proof.
  split; [reflexivity|]. split; [reflexivity|]. split; [reflexivity|].
  split; [reflexivity|]. split; [reflexivity|].
  split; [intros; reflexivity|]. split; [intros; reflexivity|].
  exact (@secret_not_logged (sdk_like provider_text)
           "us-west-2" "AKIAEXAMPLE" "wJalrEXAMPLEKEY" "another-secret"
           (UploadObject "my-bucket" "path/file.txt" (Str "hello world"))
           (fresh (sdk_like provider_text) tt) deployed deployed_resecreted
           deployed deployed_resecreted
           eq_refl eq_refl eq_refl eq_refl eq_refl
           (fun _ _ _ _ => eq_refl) (fun _ _ _ _ _ => eq_refl)).
Defined.

(* ===================================================================== *)
(** ** Beyond the claims: the success path and the answers of the client *)
(* ===================================================================== *)

Section Success.

Context {lib : ClientLibrary}.

(** X1.  When the client resolves the request of a call, the call sends
    that one request, writes one [console.log] line and no
    [console.error] line, and resolves: with [undefined], whatever the
    response was, for the five methods without a [return]; with the
    member of the response it returns for the three others, the response
    not being [null] or [undefined]. *)
Theorem success_logged_and_returned
    (c : Call) (cmd : Command) (st : State) (client : S3Client)
    (data : Value) (w1 : World) :
  s3 (this st) = Some client ->
  request c = Some cmd ->
  send client cmd (world st) = (Normal data, w1) ->
  returned_member c = None \/ is_nullish data = false ->
  exists (line : list Value) (result : Value),
    invoke c st
    = (Normal result,
       {| this := this st; world := w1; sent := (sent st ++ [cmd])%list;
          console := (console st ++ [ConsoleLog line])%list |})
    /\ match returned_member c with
       | None => result = Undefined
       | Some member => GetV data member = Normal result
       end.
Proof.
  intros Hs Hreq Hsend Hd.
  destruct c; cbn [request] in Hreq; try discriminate;
    injection Hreq as <-; cbn [returned_member] in *;
    try (unfold_method; rewrite Hs, Hsend;
         eexists; exists Undefined; split; reflexivity);
    (destruct Hd as [Hd|Hd]; [discriminate Hd|]);
    match goal with
    | |- context [GetV data ?m] => destruct (GetV_defined data m Hd) as [r Hr]
    end;
    unfold_method; rewrite Hs, Hsend; cbn; rewrite Hr;
    eexists; exists r; split; reflexivity.
Qed.

(** X2.  On a constructed instance a call hands the client the request it
    builds exactly once, however the call ends (no retry, nothing after a
    failure), and the world changes by that one [send] alone;
    [getPublicUrl] sends nothing and leaves the world as it was. *)
Theorem call_sends_once (c : Call) (st : State) (client : S3Client) :
  s3 (this st) = Some client ->
  sent (snd (invoke c st))
  = (sent st ++ match request c with Some cmd => [cmd] | None => [] end)%list
  /\ world (snd (invoke c st))
     = match request c with
       | Some cmd => snd (send client cmd (world st))
       | None => world st
       end.
Proof.
  intro Hs. split; [exact (invoke_sends c st client Hs)|].
  destruct c; unfold_method; rewrite Hs; cbn [request];
    try (destruct (send client _ (world st)) as [[data|e] w1]; cbn -[GetV];
         repeat match goal with
                | |- context [GetV ?v ?n] => destruct (GetV v n); cbn -[GetV]
                end; reflexivity).
  destruct (GetV (config client) "region"); cbn -[GetV];
    repeat match goal with
           | |- context [GetV ?v ?n] => destruct (GetV v n); cbn -[GetV]
           end; reflexivity.
Qed.

(** X3.  When the client resolves with [null] or [undefined], the three
    methods that return a member of the response reject with the
    [TypeError] of reading that member and write one [console.error]
    line; [downloadObject] has by then already written its success line,
    so that its console shows a success and an error for the one call. *)
Theorem nullish_response_rejected
    (c : Call) (cmd : Command) (member : string) (st : State)
    (client : S3Client) (data : Value) (w1 : World) :
  s3 (this st) = Some client ->
  request c = Some cmd ->
  returned_member c = Some member ->
  send client cmd (world st) = (Normal data, w1) ->
  is_nullish data = true ->
  exists prefix : string,
    invoke c st
    = (Throw (cannot_read data member),
       {| this := this st; world := w1; sent := (sent st ++ [cmd])%list;
          console :=
            (console st
             ++ match c with
                | DownloadObject bucketName key =>
                    [ConsoleLog
                       [Str ("Object " ++ quoted key ++ " downloaded from bucket "
                             ++ quoted bucketName ++ " successfully.")]]
                | _ => []
                end
             ++ [ConsoleError
                   [Str prefix;
                    Str ("Cannot read properties of " ++ type_name data
                         ++ " (reading '" ++ member ++ "')")]])%list |}).
Proof.
  intros Hs Hreq Hm Hsend Hn.
  destruct c; cbn [returned_member] in Hm; try discriminate;
    injection Hm as <-; cbn [request] in Hreq; injection Hreq as <-;
    unfold_method; rewrite Hs, Hsend; cbn -[GetV];
    rewrite (GetV_nullish data _ Hn); cbn;
    rewrite <- ?app_assoc; eexists; reflexivity.
Qed.

(** X4.  A call that resolves has written exactly one line, with
    [console.log], and none with [console.error]: in every state, for
    every method and every answer of the client. *)
Theorem resolved_call_logged_once (c : Call) (st st1 : State) (v : Value) :
  invoke c st = (Normal v, st1) ->
  exists line : list Value,
    console st1 = (console st ++ [ConsoleLog line])%list.
Proof.
  destruct c; unfold_method; split_cases; intro H;
    try discriminate H; injection H as _ <-; eexists; reflexivity.
Qed.

(** X5.  What [listBuckets] and [listObjects] resolve with is what they
    have written on the console: the line of a listing that resolved ends
    with the very value returned. *)
Theorem listing_logs_result (c : Call) (st st1 : State) (v : Value) :
  c = ListBuckets \/ (exists bucket : string, c = ListObjects bucket) ->
  invoke c st = (Normal v, st1) ->
  exists prefix : string,
    console st1 = (console st ++ [ConsoleLog [Str prefix; v]])%list.
Proof.
  intros [->|[bucket ->]]; unfold_method;
    (destruct (s3 (this st)) as [client|]; cbn -[GetV];
     [destruct (send client _ (world st)) as [[data|e] w1]; cbn -[GetV];
      [destruct (GetV data _) as [r|e] eqn:Hr; cbn -[GetV];
       [rewrite ?Hr; cbn -[GetV]|]|]|]);
    repeat match goal with
           | |- context [GetV ?x ?n] => destruct (GetV x n); cbn -[GetV]
           end;
    intro H; try discriminate H; injection H as <- <-; eexists; reflexivity.
Qed.

End Success.

(* ===================================================================== *)
(** ** Beyond the claims: requests, runs of calls, and the URL *)
(* ===================================================================== *)

Section Composition.

Context {lib : ClientLibrary}.


(** X7.  On a constructed instance [makeObjectPublic] calls [send] of the
    client, once, with a PutObjectAcl carrying the bucket name, the key
    and [ACL: "public-read"], and no body, however the request ends: the
    world is the one that [send] leaves.  A second call calls [send] with
    the same request a second time, in the world the first left. *)
Theorem makeObjectPublic_request
    (bucket key : string) (st : State) (client : S3Client) :
  s3 (this st) = Some client ->
  let params := Object [("Bucket", Str bucket); ("Key", Str key);
                        ("ACL", Str "public-read")] in
  let cmd := PutObjectAclCommand params in
  GetV params "ACL" = Normal (Str "public-read")
  /\ GetV params "Body" = Normal Undefined
  /\ sent (snd (makeObjectPublic bucket key st)) = (sent st ++ [cmd])%list
  /\ world (snd (makeObjectPublic bucket key st))
     = snd (send client cmd (world st))
  /\ sent (snd (makeObjectPublic bucket key
                  (snd (makeObjectPublic bucket key st))))
     = (sent st ++ [cmd; cmd])%list
  /\ world (snd (makeObjectPublic bucket key
                   (snd (makeObjectPublic bucket key st))))
     = snd (send client cmd (snd (send client cmd (world st)))).
Proof.
  intros Hs params cmd. subst cmd params.
  pose proof (invoke_sends (MakeObjectPublic bucket key) st client Hs) as H1.
  pose proof (invoke_world (MakeObjectPublic bucket key) st client Hs) as W1.
  cbn [invoke request] in H1, W1.
  assert (Hs1 : s3 (this (snd (makeObjectPublic bucket key st))) = Some client).
  { exact (eq_trans
             (f_equal s3 (call_keeps_instance (MakeObjectPublic bucket key) st))
             Hs). }
  pose proof (invoke_sends (MakeObjectPublic bucket key) _ client Hs1) as H2.
  pose proof (invoke_world (MakeObjectPublic bucket key) _ client Hs1) as W2.
  cbn [invoke request] in H2, W2.
  split; [reflexivity|]. split; [reflexivity|].
  split; [exact H1|]. split; [exact W1|]. split.
  - rewrite H2, H1, <- app_assoc. reflexivity.
  - rewrite W2, W1. reflexivity.
Qed.

(** X8.  A caller that awaits a run of calls on a constructed instance,
    going on after failures: [send] of the client is called with the
    requests of the calls, each once and in the order of the calls, each
    in the world the one before has left, whatever the client answers;
    the instance is the same at the end; and there is one outcome per
    call. *)
Theorem await_each_requests (cs : list Call) (st : State) (client : S3Client) :
  s3 (this st) = Some client ->
  sent (snd (await_each cs st)) = (sent st ++ requests cs)%list
  /\ world (snd (await_each cs st))
     = fold_left (fun w cmd => snd (send client cmd w)) (requests cs) (world st)
  /\ this (snd (await_each cs st)) = this st
  /\ List.length (fst (await_each cs st)) = List.length cs.
Proof.
  revert st. induction cs as [|c cs IH]; intros st Hs.
  - cbn. rewrite app_nil_r. auto.
  - cbn [await_each].
    pose proof (invoke_sends c st client Hs) as Hsent.
    pose proof (invoke_world c st client Hs) as Hworld.
    pose proof (call_keeps_instance c st) as Hthis.
    destruct (invoke c st) as [r st1]; cbn [snd] in Hsent, Hworld, Hthis.
    assert (Hs1 : s3 (this st1) = Some client) by (rewrite Hthis; exact Hs).
    destruct (IH st1 Hs1) as (IHsent & IHworld & IHthis & IHlen).
    destruct (await_each cs st1) as [rs st2]; cbn [fst snd] in *.
    split; [|split; [|split]].
    + rewrite IHsent, Hsent. unfold requests. cbn [flat_map].
      now rewrite <- app_assoc.
    + rewrite IHworld, Hworld. unfold requests. cbn [flat_map].
      rewrite fold_left_app. destruct (request c); reflexivity.
    + now rewrite IHthis.
    + cbn. now rewrite IHlen.
Qed.

(** X9.  For a fixed bucket name, keys that differ give URLs that differ;
    bucket name and key together do not: since nothing is validated or
    escaped, a key that contains the middle of the template and a bucket
    name that contains it give one and the same URL, for two different
    bucket names. *)
Theorem url_key_injective
    (bucket key1 key2 : string) (st : State) (client : S3Client) (v : Value) :
  s3 (this st) = Some client ->
  GetV (config client) "region" = Normal v ->
  (fst (getPublicUrl bucket key1 st) = fst (getPublicUrl bucket key2 st) ->
   key1 = key2)
  /\ (forall p q : string,
         bucket <> bucket ++ ".s3." ++ ToString v ++ ".amazonaws.com/" ++ p
         /\ fst (getPublicUrl bucket
                   (p ++ ".s3." ++ ToString v ++ ".amazonaws.com/" ++ q) st)
            = fst (getPublicUrl
                     (bucket ++ ".s3." ++ ToString v ++ ".amazonaws.com/" ++ p)
                     q st)).
Proof.
  intros Hs Hr. split.
  - rewrite !(getPublicUrl_run _ _ _ _ _ Hs Hr). cbn [fst]. intro H.
    injection H as H. apply append_cancel_l in H.
    injection H as H. apply append_cancel_l in H.
    injection H as H. exact H.
  - intros p q. split.
    + intro H. apply (f_equal String.length) in H.
      rewrite !length_append in H. cbn [String.length] in H. lia.
    + rewrite !(getPublicUrl_run _ _ _ _ _ Hs Hr). cbn [fst].
      do 2 f_equal. f_equal.
      rewrite !append_assoc. reflexivity.
Qed.

(** X10.  The payload does not reach the console.  Two uploads under the
    same bucket name and key that differ in the payload, the client
    settling both the same way, write the same lines; and a download
    whose response is not [null] or [undefined] writes its one success
    line, which names the key and the bucket, whatever the response
    carries. *)
Theorem payload_not_logged
    (bucket key : string) (body1 body2 : Value) (st : State) (client : S3Client) :
  s3 (this st) = Some client ->
  (fst (send client
             (PutObjectCommand (Object [("Bucket", Str bucket); ("Key", Str key);
                                        ("Body", body1); ("ACL", Str "public-read")]))
             (world st))
   = fst (send client
               (PutObjectCommand (Object [("Bucket", Str bucket); ("Key", Str key);
                                          ("Body", body2); ("ACL", Str "public-read")]))
               (world st)) ->
   console (snd (uploadObject bucket key body1 st))
   = console (snd (uploadObject bucket key body2 st)))
  /\ (forall (data : Value) (w1 : World),
         send client
              (GetObjectCommand (Object [("Bucket", Str bucket); ("Key", Str key)]))
              (world st)
         = (Normal data, w1) ->
         is_nullish data = false ->
         console (snd (downloadObject bucket key st))
         = (console st
            ++ [ConsoleLog
                  [Str ("Object " ++ quoted key ++ " downloaded from bucket "
                        ++ quoted bucket ++ " successfully.")]])%list).
Proof.
  intro Hs. split.
  - unfold_method. rewrite Hs.
    destruct (send client _ (world st)) as [r1 w1].
    destruct (send client _ (world st)) as [r2 w2].
    cbn [fst]. intros <-.
    destruct r1 as [data|e]; cbn -[GetV]; [reflexivity|].
    destruct (GetV e "message"); reflexivity.
  - intros data w1 Hsend Hn.
    destruct (GetV_defined data "Body" Hn) as [r Hr].
    unfold_method. rewrite Hs, Hsend. cbn -[GetV]. rewrite Hr. reflexivity.
Qed.

End Composition.

Lemma success_logged_and_returned_witness :
  s3 (this (listing bucket_listing object_listing)) = Some example_client
  /\ request (ListObjects "my-bucket")
     = Some (ListObjectsV2Command (Object [("Bucket", Str "my-bucket")]))
  /\ send (ClientLibrary := scripted (listing_script bucket_listing object_listing))
          example_client
          (ListObjectsV2Command (Object [("Bucket", Str "my-bucket")])) tt
     = (Normal object_listing, tt)
  /\ (returned_member (ListObjects "my-bucket") = None
      \/ is_nullish object_listing = false)
  /\ exists (line : list Value) (result : Value),
       invoke (ListObjects "my-bucket") (listing bucket_listing object_listing)
       = (Normal result,
          {| this := this (listing bucket_listing object_listing); world := tt;
             sent := [ListObjectsV2Command (Object [("Bucket", Str "my-bucket")])];
             console := [ConsoleLog line] |})
       /\ GetV object_listing "Contents" = Normal result.
Proof.
  repeat (split; [reflexivity|]). split; [right; reflexivity|].
  exact (@success_logged_and_returned
           (scripted (listing_script bucket_listing object_listing))
           (ListObjects "my-bucket") _ (listing bucket_listing object_listing)
           example_client object_listing tt
           eq_refl eq_refl eq_refl (or_intror eq_refl)).
Defined.

Lemma call_sends_once_witness :
  s3 (this (failing NoSuchKey)) = Some example_client
  /\ sent (snd (invoke (DeleteBucket "my-bucket") (failing NoSuchKey)))
     = [DeleteBucketCommand (Object [("Bucket", Str "my-bucket")])]
  /\ world (snd (invoke (DeleteBucket "my-bucket") (failing NoSuchKey))) = tt.
Proof.
  split; [reflexivity|].
  exact (@call_sends_once (rejecting NoSuchKey) (DeleteBucket "my-bucket")
           (failing NoSuchKey) example_client eq_refl).
Defined.

Lemma nullish_response_rejected_witness :
  s3 (this (answering Undefined)) = Some example_client
  /\ request (DownloadObject "my-bucket" "path/file.txt")
     = Some (GetObjectCommand
               (Object [("Bucket", Str "my-bucket"); ("Key", Str "path/file.txt")]))
  /\ returned_member (DownloadObject "my-bucket" "path/file.txt") = Some "Body"
  /\ send (ClientLibrary := canned (Normal Undefined)) example_client
          (GetObjectCommand
             (Object [("Bucket", Str "my-bucket"); ("Key", Str "path/file.txt")])) tt
     = (Normal Undefined, tt)
  /\ is_nullish Undefined = true
  /\ exists prefix : string,
       invoke (DownloadObject "my-bucket" "path/file.txt") (answering Undefined)
       = (Throw (TypeError "Cannot read properties of undefined (reading 'Body')"),
          {| this := this (answering Undefined); world := tt;
             sent := [GetObjectCommand
                        (Object [("Bucket", Str "my-bucket");
                                 ("Key", Str "path/file.txt")])];
             console :=
               [ConsoleLog
                  [Str ("Object " ++ quoted "path/file.txt"
                        ++ " downloaded from bucket " ++ quoted "my-bucket"
                        ++ " successfully.")];
                ConsoleError
                  [Str prefix;
                   Str "Cannot read properties of undefined (reading 'Body')"]] |}).
Proof.
  repeat (split; [reflexivity|]).
  exact (@nullish_response_rejected (canned (Normal Undefined))
           (DownloadObject "my-bucket" "path/file.txt") _ "Body"
           (answering Undefined) example_client Undefined tt
           eq_refl eq_refl eq_refl eq_refl eq_refl).
Defined.

Lemma resolved_call_logged_once_witness :
  invoke (CreateBucket "my-bucket") example
  = (Normal Undefined, snd (invoke (CreateBucket "my-bucket") example))
  /\ exists line : list Value,
       console (snd (invoke (CreateBucket "my-bucket") example))
       = (console example ++ [ConsoleLog line])%list.
Proof.
  split; [reflexivity|].
  exact (@resolved_call_logged_once acknowledging (CreateBucket "my-bucket")
           example _ Undefined eq_refl).
Defined.

Lemma listing_logs_result_witness :
  (ListBuckets = ListBuckets \/ exists bucket : string, ListBuckets = ListObjects bucket)
  /\ invoke ListBuckets (listing bucket_listing object_listing)
     = (Normal one_bucket, snd (invoke ListBuckets (listing bucket_listing object_listing)))
  /\ exists prefix : string,
       console (snd (invoke ListBuckets (listing bucket_listing object_listing)))
       = (console (listing bucket_listing object_listing)
          ++ [ConsoleLog [Str prefix; one_bucket]])%list.
Proof.
  split; [left; reflexivity|]. split; [reflexivity|].
  exact (@listing_logs_result
           (scripted (listing_script bucket_listing object_listing))
           ListBuckets (listing bucket_listing object_listing) _ one_bucket
           (or_introl eq_refl) eq_refl).
Defined.


Lemma makeObjectPublic_request_witness :
  s3 (this recorded) = Some example_client
  /\ (GetV (Object [("Bucket", Str "my-bucket"); ("Key", Str "path/file.txt");
                    ("ACL", Str "public-read")]) "ACL"
      = Normal (Str "public-read")
      /\ GetV (Object [("Bucket", Str "my-bucket"); ("Key", Str "path/file.txt");
                       ("ACL", Str "public-read")]) "Body"
         = Normal Undefined
      /\ sent (snd (makeObjectPublic "my-bucket" "path/file.txt" recorded))
         = [PutObjectAclCommand
              (Object [("Bucket", Str "my-bucket"); ("Key", Str "path/file.txt");
                       ("ACL", Str "public-read")])]
      /\ world (snd (makeObjectPublic "my-bucket" "path/file.txt" recorded))
         = [PutObjectAclCommand
              (Object [("Bucket", Str "my-bucket"); ("Key", Str "path/file.txt");
                       ("ACL", Str "public-read")])]
      /\ sent (snd (makeObjectPublic "my-bucket" "path/file.txt"
                      (snd (makeObjectPublic "my-bucket" "path/file.txt" recorded))))
         = [PutObjectAclCommand
              (Object [("Bucket", Str "my-bucket"); ("Key", Str "path/file.txt");
                       ("ACL", Str "public-read")]);
            PutObjectAclCommand
              (Object [("Bucket", Str "my-bucket"); ("Key", Str "path/file.txt");
                       ("ACL", Str "public-read")])]
      /\ world (snd (makeObjectPublic "my-bucket" "path/file.txt"
                       (snd (makeObjectPublic "my-bucket" "path/file.txt" recorded))))
         = [PutObjectAclCommand
              (Object [("Bucket", Str "my-bucket"); ("Key", Str "path/file.txt");
                       ("ACL", Str "public-read")]);
            PutObjectAclCommand
              (Object [("Bucket", Str "my-bucket"); ("Key", Str "path/file.txt");
                       ("ACL", Str "public-read")])]).
Proof.
  split; [reflexivity|].
  exact (@makeObjectPublic_request recording "my-bucket" "path/file.txt"
           recorded example_client eq_refl).
Defined.

Lemma await_each_requests_witness :
  s3 (this recorded) = Some example_client
  /\ sent (snd (await_each
                  [DeleteObject "my-bucket" "missing.txt";
                   GetPublicUrl "my-bucket" "path/file.txt";
                   ListObjects "my-bucket"]
                  recorded))
     = [DeleteObjectCommand
          (Object [("Bucket", Str "my-bucket"); ("Key", Str "missing.txt")]);
        ListObjectsV2Command (Object [("Bucket", Str "my-bucket")])]
  /\ world (snd (await_each
                   [DeleteObject "my-bucket" "missing.txt";
                    GetPublicUrl "my-bucket" "path/file.txt";
                    ListObjects "my-bucket"]
                   recorded))
     = [DeleteObjectCommand
          (Object [("Bucket", Str "my-bucket"); ("Key", Str "missing.txt")]);
        ListObjectsV2Command (Object [("Bucket", Str "my-bucket")])]
  /\ this (snd (await_each
                  [DeleteObject "my-bucket" "missing.txt";
                   GetPublicUrl "my-bucket" "path/file.txt";
                   ListObjects "my-bucket"]
                  recorded))
     = this recorded
  /\ List.length (fst (await_each
                         [DeleteObject "my-bucket" "missing.txt";
                          GetPublicUrl "my-bucket" "path/file.txt";
                          ListObjects "my-bucket"]
                         recorded))
     = 3.
Proof.
  split; [reflexivity|].
  exact (@await_each_requests recording
           [DeleteObject "my-bucket" "missing.txt";
            GetPublicUrl "my-bucket" "path/file.txt";
            ListObjects "my-bucket"]
           recorded example_client eq_refl).
Defined.

Lemma url_key_injective_witness :
  s3 (this example) = Some example_client
  /\ GetV example_client "region" = Normal (Str "us-west-2")
  /\ (fst (getPublicUrl "my-bucket" "a.txt" example)
      = fst (getPublicUrl "my-bucket" "b.txt" example) ->
      "a.txt" = "b.txt")
  /\ "a" <> "a.s3.us-west-2.amazonaws.com/p"
  /\ fst (getPublicUrl "a" "p.s3.us-west-2.amazonaws.com/q" example)
     = fst (getPublicUrl "a.s3.us-west-2.amazonaws.com/p" "q" example).
Proof.
  split; [reflexivity|]. split; [reflexivity|].
  destruct (@url_key_injective acknowledging "my-bucket" "a.txt" "b.txt"
              example example_client (Str "us-west-2") eq_refl eq_refl)
    as [Hinj _].
  destruct (@url_key_injective acknowledging "a" "a.txt" "b.txt"
              example example_client (Str "us-west-2") eq_refl eq_refl)
    as [_ Hcol].
  split; [exact Hinj|]. exact (Hcol "p" "q").
Defined.

Lemma payload_not_logged_witness :
  s3 (this example) = Some example_client
  /\ console (snd (uploadObject "my-bucket" "path/file.txt" (Str "hello world") example))
     = console (snd (uploadObject "my-bucket" "path/file.txt" (Str "other bytes") example))
  /\ console (snd (downloadObject "my-bucket" "path/file.txt" example))
     = [ConsoleLog
          [Str ("Object " ++ quoted "path/file.txt" ++ " downloaded from bucket "
                ++ quoted "my-bucket" ++ " successfully.")]].
Proof.
  split; [reflexivity|].
  destruct (@payload_not_logged acknowledging "my-bucket" "path/file.txt"
              (Str "hello world") (Str "other bytes") example example_client
              eq_refl) as [Hup Hdown].
  split; [exact (Hup eq_refl)|].
  exact (Hdown (Object []) tt eq_refl eq_refl).
Defined.

Lemma nullish_failure_replaced_witness :
  s3 (this (failing Null)) = Some example_client
  /\ request (CreateBucket "my-bucket")
     = Some (CreateBucketCommand (Object [("Bucket", Str "my-bucket")]))
  /\ send (ClientLibrary := rejecting Null) example_client
          (CreateBucketCommand (Object [("Bucket", Str "my-bucket")])) tt
     = (Throw Null, tt)
  /\ is_nullish Null = true
  /\ invoke (CreateBucket "my-bucket") (failing Null)
     = (Throw (TypeError "Cannot read properties of null (reading 'message')"),
        {| this := this (failing Null); world := tt;
           sent := [CreateBucketCommand (Object [("Bucket", Str "my-bucket")])];
           console := [] |}).
Proof.
  repeat (split; [reflexivity|]).
  exact (@nullish_failure_replaced (rejecting Null) (CreateBucket "my-bucket") _
           (failing Null) example_client Null tt
           eq_refl eq_refl eq_refl eq_refl).
Defined.
